(** * A shallow embedding of the data pipeline of IPO GMP Pro (src/src/App.tsx)

    The formatters, the date parser, the sort comparator, the search filter,
    the statistics and the cache-gated [fetchData] of [App.tsx] are written
    here as Rocq functions.  The JavaScript host (numbers, [parseFloat], the
    [Date] constructor, [Intl.NumberFormat], [Array.prototype.sort], the DOM
    used by [decodeHTML], [localeCompare]) is modelled by small definitions of
    its own, documented where they appear. *)

From Stdlib Require Import ZArith QArith Qround String Ascii List Bool Permutation Sorted Lia Lqa.
Import ListNotations.

Open Scope Z_scope.

(** ** JavaScript numbers

    A JS number is a finite value, an infinity or [NaN].  Finite values are
    kept as exact rationals: the rounding of IEEE doubles and the sign of
    zero are not modelled. *)

Inductive jsnum : Type :=
| JNum (q : Q)
| JInf (pos : bool)
| JNaN.

Module JsNum.

Definition Qlt_bool (a b : Q) : bool := negb (Qle_bool b a).

Definition neg (x : jsnum) : jsnum :=
  match x with
  | JNum q => JNum (Qred (- q))
  | JInf p => JInf (negb p)
  | JNaN => JNaN
  end.

Definition add (x y : jsnum) : jsnum :=
  match x, y with
  | JNum a, JNum b => JNum (Qred (a + b))
  | JNaN, _ | _, JNaN => JNaN
  | JInf p, JInf p' => if Bool.eqb p p' then JInf p else JNaN
  | JInf p, JNum _ | JNum _, JInf p => JInf p
  end.

Definition sub (x y : jsnum) : jsnum := add x (neg y).

Definition div (x y : jsnum) : jsnum :=
  match x, y with
  | JNaN, _ | _, JNaN => JNaN
  | JNum a, JNum b =>
      if Qeq_bool b 0 then
        if Qeq_bool a 0 then JNaN else JInf (Qlt_bool 0 a)
      else JNum (Qred (a / b))
  | JInf _, JInf _ => JNaN
  | JInf p, JNum b => JInf (if Qlt_bool b 0 then negb p else p)
  | JNum _, JInf _ => JNum 0
  end.

(** [x || 0]: [0] and [NaN] are falsy. *)
Definition or0 (x : jsnum) : jsnum :=
  match x with
  | JNum q => if Qeq_bool q 0 then JNum 0 else x
  | JNaN => JNum 0
  | JInf _ => x
  end.

Definition isNaN (x : jsnum) : bool :=
  match x with JNaN => true | _ => false end.

(** [x < 0], as [Array.prototype.sort] tests a comparator's result
    ([NaN] counts as [+0]). *)
Definition lt0 (x : jsnum) : bool :=
  match x with
  | JNum q => Qlt_bool q 0
  | JInf p => negb p
  | JNaN => false
  end.

Definition of_Z (z : Z) : jsnum := JNum (inject_Z z).

End JsNum.

(** ** Characters and strings *)

Definition chars (s : string) : list ascii := list_ascii_of_string s.
Definition str (l : list ascii) : string := string_of_list_ascii l.

Definition is_digit (c : ascii) : bool :=
  (48 <=? nat_of_ascii c)%nat && (nat_of_ascii c <=? 57)%nat.

Definition digit_val (c : ascii) : Z := Z.of_nat (nat_of_ascii c) - 48.

Fixpoint span_digits (l : list ascii) : list ascii * list ascii :=
  match l with
  | c :: r =>
      if is_digit c then let '(ds, rest) := span_digits r in (c :: ds, rest)
      else ([], l)
  | [] => ([], [])
  end.

Definition digits_value (ds : list ascii) : Z :=
  fold_left (fun acc c => acc * 10 + digit_val c) ds 0.

(** [String.prototype.includes] for a one-character needle. *)
Definition includes_char (c : ascii) (l : list ascii) : bool :=
  existsb (Ascii.eqb c) l.

Fixpoint is_prefix (p l : list ascii) : bool :=
  match p, l with
  | [], _ => true
  | a :: p', b :: l' => Ascii.eqb a b && is_prefix p' l'
  | _ :: _, [] => false
  end.

(** [String.prototype.includes] for an arbitrary needle. *)
Fixpoint includes (hay needle : list ascii) : bool :=
  is_prefix needle hay ||
  match hay with
  | [] => false
  | _ :: hay' => includes hay' needle
  end.

(** [String.prototype.split] with a one-character separator. *)
Fixpoint split_on (c : ascii) (l : list ascii) : list (list ascii) :=
  match l with
  | [] => [[]]
  | x :: r =>
      if Ascii.eqb x c then [] :: split_on c r
      else match split_on c r with
           | p :: ps => (x :: p) :: ps
           | [] => [[x]]
           end
  end.

(** An element of a destructured array, rendered by a template literal:
    a missing element is [undefined]. *)
Definition nth_or_undefined (n : nat) (ps : list (list ascii)) : list ascii :=
  nth n ps (chars "undefined").

(** [String.prototype.toLowerCase], on the ASCII range. *)
Definition lower_char (c : ascii) : ascii :=
  let n := nat_of_ascii c in
  if (65 <=? n)%nat && (n <=? 90)%nat then ascii_of_nat (n + 32) else c.

Definition toLowerCase (s : string) : string := str (map lower_char (chars s)).

(** Decimal rendering of a non-negative integer. *)
Fixpoint pos_digits (fuel : nat) (n : Z) (acc : list ascii) : list ascii :=
  match fuel with
  | O => acc
  | S fuel' =>
      let acc' := ascii_of_nat (Z.to_nat (n mod 10 + 48)) :: acc in
      if n <? 10 then acc' else pos_digits fuel' (n / 10) acc'
  end.

Definition z_dec (z : Z) : list ascii :=
  if z <? 0 then "-"%char :: pos_digits (Z.to_nat (Z.log2 (- z) + 1)) (- z) []
  else pos_digits (Z.to_nat (Z.log2 z + 1)) z [].

(** ** [parseFloat]

    Leading white space, an optional sign, [Infinity], or the longest decimal
    literal (digits, optional fraction, optional exponent); [NaN] when no
    digit is found. *)

Definition is_ws (c : ascii) : bool :=
  let n := nat_of_ascii c in ((9 <=? n)%nat && (n <=? 13)%nat) || (n =? 32)%nat.

Fixpoint skip_ws (l : list ascii) : list ascii :=
  match l with
  | c :: r => if is_ws c then skip_ws r else l
  | [] => []
  end.

Definition pow10 (k : Z) : Q :=
  if 0 <=? k then inject_Z (10 ^ k) else / inject_Z (10 ^ (- k)).

Definition exponent_of (l : list ascii) : Z :=
  match l with
  | e :: r =>
      if Ascii.eqb e "e" || Ascii.eqb e "E" then
        let '(sg, r') :=
          match r with
          | "-"%char :: r' => (-1, r')
          | "+"%char :: r' => (1, r')
          | _ => (1, r)
          end in
        match span_digits r' with
        | ([], _) => 0
        | (ds, _) => sg * digits_value ds
        end
      else 0
  | [] => 0
  end.

Definition parseFloat (s : string) : jsnum :=
  let l := skip_ws (chars s) in
  let '(negative, l) :=
    match l with
    | "-"%char :: r => (true, r)
    | "+"%char :: r => (false, r)
    | _ => (false, l)
    end in
  if is_prefix (chars "Infinity") l then JInf (negb negative) else
  let '(ip, r) := span_digits l in
  let '(fp, r) :=
    match r with
    | "."%char :: r' => span_digits r'
    | _ => ([], r)
    end in
  match ip, fp with
  | [], [] => JNaN
  | _, _ =>
      let q := Qred (inject_Z (digits_value (ip ++ fp)) *
                     pow10 (exponent_of r - Z.of_nat (length fp))) in
      JNum (if negative then Qred (- q) else q)
  end.

(** [s.replace(/[^0-9.-]+/g, '')]: keep digits, '.' and '-'. *)
Definition strip_non_numeric (s : string) : string :=
  str (filter (fun c => is_digit c || Ascii.eqb c "." || Ascii.eqb c "-") (chars s)).

(** ** Dates

    A JS [Date] is a time value in milliseconds, or the invalid date whose
    time value is [NaN].  Time values are counted in local time (the time
    zone offset is folded in) on the proleptic Gregorian calendar. *)

Inductive jsdate : Type :=
| ValidDate (t : Z)
| InvalidDate.

(** Days since 1970-01-01 of year [y], month [m] (1..12), day [d]. *)
Definition days_from_civil (y m d : Z) : Z :=
  let y' := if m <=? 2 then y - 1 else y in
  let era := y' / 400 in
  let yoe := y' - era * 400 in
  let mp := if 2 <? m then m - 3 else m + 9 in
  let doy := (153 * mp + 2) / 5 + d - 1 in
  let doe := yoe * 365 + yoe / 4 - yoe / 100 + doy in
  era * 146097 + doe - 719468.

(** Year, month (1..12) and day of a day count. *)
Definition civil_from_days (days : Z) : Z * Z * Z :=
  let z := days + 719468 in
  let era := z / 146097 in
  let doe := z - era * 146097 in
  let yoe := (doe - doe / 1460 + doe / 36524 - doe / 146096) / 365 in
  let y := yoe + era * 400 in
  let doy := doe - (365 * yoe + yoe / 4 - yoe / 100) in
  let mp := (5 * doy + 2) / 153 in
  let d := doy - (153 * mp + 2) / 5 + 1 in
  let m := if mp <? 10 then mp + 3 else mp - 9 in
  (if m <=? 2 then y + 1 else y, m, d).

Definition ms_per_day : Z := 86400000.

Definition getTime (d : jsdate) : jsnum :=
  match d with
  | ValidDate t => JsNum.of_Z t
  | InvalidDate => JNaN
  end.

(** [getFullYear], [getMonth] (0-based) and [getDate]; [None] is [NaN]. *)
Definition getFullYear (d : jsdate) : option Z :=
  match d with
  | ValidDate t => let '(y, _, _) := civil_from_days (t / ms_per_day) in Some y
  | InvalidDate => None
  end.

Definition getMonth (d : jsdate) : option Z :=
  match d with
  | ValidDate t => let '(_, m, _) := civil_from_days (t / ms_per_day) in Some (m - 1)
  | InvalidDate => None
  end.

Definition getDate (d : jsdate) : option Z :=
  match d with
  | ValidDate t => let '(_, _, dd) := civil_from_days (t / ms_per_day) in Some dd
  | InvalidDate => None
  end.

Fixpoint span_letters (l : list ascii) : list ascii * list ascii :=
  match l with
  | c :: r =>
      let n := nat_of_ascii (lower_char c) in
      if (97 <=? n)%nat && (n <=? 122)%nat then
        let '(w, rest) := span_letters r in (c :: w, rest)
      else ([], l)
  | [] => ([], [])
  end.

Definition month_names : list string :=
  ["jan"; "feb"; "mar"; "apr"; "may"; "jun";
   "jul"; "aug"; "sep"; "oct"; "nov"; "dec"]%string.

(** A month word: its first three letters, case-insensitively. *)
Definition month_of_word (w : list ascii) : option Z :=
  match map lower_char w with
  | a :: b :: c :: _ =>
      let fix find (ns : list string) (i : Z) :=
        match ns with
        | [] => None
        | n :: ns' => if String.eqb n (str [a; b; c]) then Some i else find ns' (i + 1)
        end in
      find month_names 1
  | _ => None
  end.

Definition time_value (y m d h mi : Z) : Z :=
  days_from_civil y m d * ms_per_day + h * 3600000 + mi * 60000.

(** [new Date(s)] on the strings [parseDate] builds: ["Mon D, YYYY"] and
    ["Mon D, YYYY HH:mm"] (month word, day 1..31, year, 24-hour time).  Any
    other string is modelled as the invalid date. *)
Definition date_of_string (s : list ascii) : jsdate :=
  match span_letters s with
  | (w, " "%char :: r) =>
      match month_of_word w, span_digits r with
      | Some m, ((_ :: _) as ds, ","%char :: " "%char :: r2) =>
          let d := digits_value ds in
          if (1 <=? d) && (d <=? 31) then
            match span_digits r2 with
            | ((_ :: _) as ys, []) => ValidDate (time_value (digits_value ys) m d 0 0)
            | ((_ :: _) as ys, " "%char :: r3) =>
                match span_digits r3 with
                | ((_ :: _) as hs, ":"%char :: r4) =>
                    match span_digits r4 with
                    | ((_ :: _) as mis, []) =>
                        let h := digits_value hs in
                        let mi := digits_value mis in
                        if (h <? 24) && (mi <? 60) then
                          ValidDate (time_value (digits_value ys) m d h mi)
                        else InvalidDate
                    | _ => InvalidDate
                    end
                | _ => InvalidDate
                end
            | _ => InvalidDate
            end
          else InvalidDate
      | _, _ => InvalidDate
      end
  | _ => InvalidDate
  end.

(** [parseDate] (App.tsx, lines 97-116).  [year] is
    [new Date().getFullYear()] at call time; [None] is the [null] result. *)
Definition parseDate (year : Z) (dateStr : option string) : option jsdate :=
  match dateStr with
  | None => None
  | Some s =>
      let l := chars s in
      match l with
      | [] => None
      | _ =>
          if includes_char "-" l && negb (includes_char ":" l) then
            let parts := split_on "-" l in
            let day := nth_or_undefined 0 parts in
            let month := nth_or_undefined 1 parts in
            Some (date_of_string (month ++ chars " " ++ day ++ chars ", " ++ z_dec year))
          else if includes_char ":" l then
            let halves := split_on " " l in
            let datePart := nth_or_undefined 0 halves in
            let timePart := nth_or_undefined 1 halves in
            let parts := split_on "-" datePart in
            let day := nth_or_undefined 0 parts in
            let month := nth_or_undefined 1 parts in
            Some (date_of_string (month ++ chars " " ++ day ++ chars ", " ++
                                  z_dec year ++ chars " " ++ timePart))
          else None
      end
  end.

(** ** [Intl.NumberFormat('en-IN', {style:'currency', currency:'INR',
    maximumFractionDigits:0})]

    Rounding half away from zero to an integer, Indian digit grouping (the
    last three digits, then groups of two), the rupee sign after the minus
    sign. *)

Definition round_half_expand (q : Q) : Z :=
  if JsNum.Qlt_bool q 0 then - Qfloor (- q + (1 # 2)) else Qfloor (q + (1 # 2)).

Fixpoint group2_rev (r : list ascii) : list ascii :=
  match r with
  | a :: b :: ((_ :: _) as r') => a :: b :: ","%char :: group2_rev r'
  | _ => r
  end.

Definition indian_group (ds : list ascii) : list ascii :=
  let n := length ds in
  if (n <=? 3)%nat then ds
  else rev (group2_rev (rev (firstn (n - 3) ds))) ++ ","%char :: skipn (n - 3) ds.

Definition rupee : string := "₹".

Definition priceFormatter_format (x : jsnum) : string :=
  match x with
  | JNum q =>
      (if JsNum.Qlt_bool q 0 then "-" else "") ++ rupee ++
      str (indian_group (z_dec (Z.abs (round_half_expand q))))
  | JInf p => (if p then "" else "-") ++ rupee ++ "∞"
  | JNaN => rupee ++ "NaN"
  end.

(** [formatPrice] (App.tsx, lines 74-78). *)
Definition formatPrice (price : option string) : string :=
  match price with
  | None => "-"
  | Some p =>
      if String.eqb p "" || String.eqb p "--" then "-"
      else
        let numPrice := parseFloat (strip_non_numeric p) in
        if JsNum.isNaN numPrice then "-" else priceFormatter_format numPrice
  end.

(** The first match of [/[\d,]+\.?\d*/]. *)
Definition is_digit_or_comma (c : ascii) : bool := is_digit c || Ascii.eqb c ",".

Fixpoint span_digits_commas (l : list ascii) : list ascii * list ascii :=
  match l with
  | c :: r =>
      if is_digit_or_comma c then
        let '(ds, rest) := span_digits_commas r in (c :: ds, rest)
      else ([], l)
  | [] => ([], [])
  end.

Fixpoint num_match (l : list ascii) : option (list ascii) :=
  match l with
  | [] => None
  | c :: r =>
      if is_digit_or_comma c then
        let '(a, rest) := span_digits_commas l in
        match rest with
        | "."%char :: rest' => let '(ds, _) := span_digits rest' in Some (a ++ "."%char :: ds)
        | _ => Some a
        end
      else num_match r
  end.

(** ** Records *)

Record GmpDataItem : Type := {
  ipo : string;
  price : string;
  gmp : string;
  est_listing : string;
  ipo_size : string;
  lot : string;
  open : option string;
  close : option string;
  boa_dt : option string;
  listing : option string;
  gmp_updated : string;
  classname : option string
}.

(** [item[key]]: [None] for [null] and for a key that is not a field
    ([undefined]). *)
Definition item_field (key : string) (it : GmpDataItem) : option string :=
  if String.eqb key "ipo" then Some (ipo it)
  else if String.eqb key "price" then Some (price it)
  else if String.eqb key "gmp" then Some (gmp it)
  else if String.eqb key "est_listing" then Some (est_listing it)
  else if String.eqb key "ipo_size" then Some (ipo_size it)
  else if String.eqb key "lot" then Some (lot it)
  else if String.eqb key "open" then open it
  else if String.eqb key "close" then close it
  else if String.eqb key "boa_dt" then boa_dt it
  else if String.eqb key "listing" then listing it
  else if String.eqb key "gmp_updated" then Some (gmp_updated it)
  else if String.eqb key "classname" then classname it
  else None.

(** [v || '']: [null], [undefined] and [''] give [''], a string stays. *)
Definition or_empty (v : option string) : string :=
  match v with Some s => s | None => "" end.

Inductive SortOrder : Type := Asc | Desc.

(** [Array.prototype.sort] with a comparator, as the stable binary insertion
    sort of V8 on short arrays: each element, taken left to right, goes
    before the first sorted element [y] with [cmp x y < 0]. *)
Fixpoint insert_by {A : Type} (cmp : A -> A -> jsnum) (x : A) (l : list A) : list A :=
  match l with
  | [] => [x]
  | y :: l' => if JsNum.lt0 (cmp x y) then x :: l else y :: insert_by cmp x l'
  end.

Definition array_sort {A : Type} (cmp : A -> A -> jsnum) (l : list A) : list A :=
  fold_left (fun acc x => insert_by cmp x acc) l [].

Definition date_fields : list string :=
  ["open"; "close"; "boa_dt"; "listing"; "gmp_updated"]%string.

Section Host.

(** The DOM: the [textContent] and [innerText] of a [div] whose [innerHTML]
    was set to the argument. *)
Variable textContent : string -> string.
Variable innerText : string -> string.
(** [String.prototype.localeCompare] of the host's collation. *)
Variable localeCompare : string -> string -> Z.

(** [decodeHTML] (App.tsx, lines 91-95). *)
Definition decodeHTML (html : string) : string :=
  let t := textContent html in
  if String.eqb t "" then innerText html else t.

(** [formatIPOSize] (App.tsx, lines 81-89). *)
Definition formatIPOSize (size : string) : string :=
  if String.eqb size "" || String.eqb size "--" then "-"
  else
    let decodedSize := decodeHTML size in
    match num_match (chars decodedSize) with
    | None => decodedSize
    | Some tok =>
        let numValue := parseFloat (str (filter (fun c => negb (Ascii.eqb c ",")) tok)) in
        priceFormatter_format numValue ++ " Cr"
    end.

(** The comparator of [sortData] (App.tsx, lines 135-175); [year] is the
    current year read by [parseDate]. *)
Definition compare_items (year : Z) (sortBy : string) (sortOrder : SortOrder)
    (a b : GmpDataItem) : jsnum :=
  let aVal := or_empty (item_field sortBy a) in
  let bVal := or_empty (item_field sortBy b) in
  let asc := match sortOrder with Asc => true | Desc => false end in
  if String.eqb sortBy "price" || String.eqb sortBy "lot" || String.eqb sortBy "ipo_size" then
    let aNum := JsNum.or0 (parseFloat (strip_non_numeric aVal)) in
    let bNum := JsNum.or0 (parseFloat (strip_non_numeric bVal)) in
    if asc then JsNum.sub aNum bNum else JsNum.sub bNum aNum
  else if String.eqb sortBy "gmp" then
    let aVal := if String.eqb aVal "-" then "0"%string else aVal in
    let bVal := if String.eqb bVal "-" then "0"%string else bVal in
    let aNum := JsNum.or0 (parseFloat aVal) in
    let bNum := JsNum.or0 (parseFloat bVal) in
    if asc then JsNum.sub aNum bNum else JsNum.sub bNum aNum
  else if existsb (String.eqb sortBy) date_fields then
    match parseDate year (Some aVal), parseDate year (Some bVal) with
    | None, None => JsNum.of_Z 0
    | None, Some _ => if asc then JsNum.of_Z 1 else JsNum.of_Z (-1)
    | Some _, None => if asc then JsNum.of_Z (-1) else JsNum.of_Z 1
    | Some aDate, Some bDate =>
        if asc then JsNum.sub (getTime aDate) (getTime bDate)
        else JsNum.sub (getTime bDate) (getTime aDate)
    end
  else if asc then JsNum.of_Z (localeCompare aVal bVal)
  else JsNum.of_Z (localeCompare bVal aVal).

(** [sortData]: [[...data].sort(cmp)]. *)
Definition sortData (year : Z) (data : list GmpDataItem) (sortBy : string)
    (sortOrder : SortOrder) : list GmpDataItem :=
  array_sort (compare_items year sortBy sortOrder) data.

(** The search filter of [filteredAndSortedData] (App.tsx, lines 229-231). *)
Definition filterData (data : list GmpDataItem) (searchTerm : string) : list GmpDataItem :=
  filter (fun item =>
            includes (chars (toLowerCase (decodeHTML (ipo item))))
                     (chars (toLowerCase searchTerm))) data.

(** [filteredAndSortedData] (App.tsx, lines 227-235). *)
Definition filteredAndSortedData (year : Z) (data : list GmpDataItem)
    (searchTerm sortBy : string) (sortOrder : SortOrder) : list GmpDataItem :=
  sortData year (filterData data searchTerm) sortBy sortOrder.

End Host.

(** [statsData.avgGMP] (App.tsx, lines 249-253). *)
Definition avgGMP (gmpData : list GmpDataItem) : jsnum :=
  JsNum.div
    (fold_left (fun acc curr => JsNum.add acc (JsNum.or0 (parseFloat (gmp curr))))
               (filter (fun item => negb (String.eqb (gmp item) "-")) gmpData)
               (JNum 0))
    (JsNum.of_Z (Z.of_nat (length gmpData))).

(** ** The cache and refresh controller

    The state [fetchData] reads and writes through React setters, and the
    outcome of the single [fetch] it may issue. *)

Record CacheEntry : Type := {
  c_data : list GmpDataItem;
  c_timestamp : Z
}.

Record AppState : Type := {
  gmpData : list GmpDataItem;
  loading : bool;
  error : option string;
  refreshing : bool;
  cache : option CacheEntry
}.

Definition cacheDuration : Z := 300000.

Definition api_url : string := "https://gmp-extractor.khatriutsav63.workers.dev/".

(** The body of a response: [response.json()] resolves to [{ data }] or
    rejects with an [Error] message. *)
Inductive JsonBody : Type :=
| JsonOk (data : list GmpDataItem)
| JsonError (msg : string).

(** [fetch] rejects (with an [Error] message, or with a value that is not
    an [Error]) or resolves to a response with a status and a body. *)
Inductive FetchOutcome : Type :=
| NetworkError (msg : option string)
| Response (status : Z) (body : JsonBody).

Definition ok_status (status : Z) : bool := (200 <=? status) && (status <=? 299).

(** [err instanceof Error ? err.message : 'An unknown error occurred'] *)
Definition error_text (msg : option string) : string :=
  match msg with
  | Some m => m
  | None => "An unknown error occurred"
  end.

Definition set_gmpData (d : list GmpDataItem) (st : AppState) : AppState :=
  {| gmpData := d; loading := loading st; error := error st;
     refreshing := refreshing st; cache := cache st |}.
Definition set_loading (b : bool) (st : AppState) : AppState :=
  {| gmpData := gmpData st; loading := b; error := error st;
     refreshing := refreshing st; cache := cache st |}.
Definition set_error (e : option string) (st : AppState) : AppState :=
  {| gmpData := gmpData st; loading := loading st; error := e;
     refreshing := refreshing st; cache := cache st |}.
Definition set_refreshing (b : bool) (st : AppState) : AppState :=
  {| gmpData := gmpData st; loading := loading st; error := error st;
     refreshing := b; cache := cache st |}.
Definition set_cache (c : option CacheEntry) (st : AppState) : AppState :=
  {| gmpData := gmpData st; loading := loading st; error := error st;
     refreshing := refreshing st; cache := c |}.

(** The cache test of [fetchData]: [cache && Date.now() - cache.timestamp <
    cacheDuration]. *)
Definition cache_fresh (now : Z) (st : AppState) : bool :=
  match cache st with
  | Some c => now - c_timestamp c <? cacheDuration
  | None => false
  end.

(** The [try]/[catch]/[finally] part of [fetchData] (App.tsx, lines
    200-218); [now_done] is [Date.now()] once the response is read. *)
Definition fetch_and_store (now_done : Z) (outcome : FetchOutcome) (st : AppState)
    : AppState :=
  let st1 := set_refreshing true st in
  let st2 :=
    match outcome with
    | NetworkError msg => set_error (Some (error_text msg)) st1
    | Response status body =>
        if ok_status status then
          match body with
          | JsonOk data =>
              set_error None
                (set_cache (Some {| c_data := data; c_timestamp := now_done |})
                   (set_gmpData data st1))
          | JsonError msg => set_error (Some msg) st1
          end
        else set_error (Some ("Failed to fetch data. Status: " ++ str (z_dec status))%string) st1
    end in
  set_refreshing false (set_loading false st2).

(** [fetchData] (App.tsx, lines 193-219), also the [onClick] handler of the
    Refresh button (lines 341-350) and the interval callback.  [now] is
    [Date.now()] at the call; the second component lists the URLs
    fetched. *)
Definition fetchData (now now_done : Z) (outcome : FetchOutcome) (st : AppState)
    : AppState * list string :=
  match cache st with
  | Some c =>
      if now - c_timestamp c <? cacheDuration then
        (set_refreshing false (set_loading false (set_gmpData (c_data c) st)), [])
      else (fetch_and_store now_done outcome st, [api_url])
  | None => (fetch_and_store now_done outcome st, [api_url])
  end.

(** ** Concrete inputs *)

Definition sample_item (name gmp_value : string) (open_date : option string) : GmpDataItem :=
  {| ipo := name; price := "100"; gmp := gmp_value; est_listing := "";
     ipo_size := "10 Cr"; lot := "1"; open := open_date; close := None;
     boa_dt := None; listing := None; gmp_updated := ""; classname := None |}.

Definition three_gmps : list GmpDataItem :=
  [sample_item "A" "100" None; sample_item "B" "-" None; sample_item "C" "50" None].

Definition cached_state (data : list GmpDataItem) (ts : Z) : AppState :=
  {| gmpData := data; loading := false; error := None; refreshing := false;
     cache := Some {| c_data := data; c_timestamp := ts |} |}.

(** A collation used to run the comparator on concrete inputs. *)
Definition byte_compare (a b : string) : Z :=
  match String.compare a b with Lt => -1 | Eq => 0 | Gt => 1 end.

(** All elements failing [p] come before all elements satisfying [p]. *)
Fixpoint partitioned {A : Type} (p : A -> bool) (l : list A) : bool :=
  match l with
  | [] => true
  | x :: r => if p x then forallb p r else partitioned p r
  end.

Definition is_failure (out : FetchOutcome) : bool :=
  match out with
  | NetworkError _ => true
  | Response status body =>
      negb (ok_status status) || match body with JsonError _ => true | JsonOk _ => false end
  end.

Definition failure_message (out : FetchOutcome) : string :=
  match out with
  | NetworkError msg => error_text msg
  | Response status body =>
      if ok_status status then
        match body with JsonError msg => msg | JsonOk _ => "" end
      else ("Failed to fetch data. Status: " ++ str (z_dec status))%string
  end.

(** [parseDate] of a record's field gives [null]. *)
Definition date_unparseable (year : Z) (k : string) (it : GmpDataItem) : bool :=
  match parseDate year (Some (or_empty (item_field k it))) with
  | None => true
  | Some _ => false
  end.

(** Day of era of 23 December of year [yoe] of an era. *)
Definition dec23_doe (yoe : Z) : Z := yoe * 365 + yoe / 4 - yoe / 100 + 297.

Definition dec23_ok (yoe : Z) : bool :=
  let doe := dec23_doe yoe in
  let yoe' := (doe - doe / 1460 + doe / 36524 - doe / 146096) / 365 in
  let doy := doe - (365 * yoe' + yoe' / 4 - yoe' / 100) in
  let mp := (5 * doy + 2) / 153 in
  let d := doy - (153 * mp + 2) / 5 + 1 in
  let m := if mp <? 10 then mp + 3 else mp - 9 in
  (0 <=? doe) && (doe <? 146097) && (yoe' =? yoe) && (m =? 12) && (d =? 23).

(** ** Further code of [App.tsx] *)

(** The initial state of [App] (lines 178-188). *)
Definition initial_state : AppState :=
  {| gmpData := []; loading := true; error := None; refreshing := false; cache := None |}.

(** Successive calls of [fetchData], each seeing the state the previous
    one committed: [(now, now_done, outcome)] per call. *)
Definition run_fetches (calls : list (Z * Z * FetchOutcome)) (st : AppState) : AppState :=
  fold_left (fun st' call => let '(now, now_done, out) := call in
                             fst (fetchData now now_done out st')) calls st.

(** The published snapshot is the cached one whenever a cache entry
    exists. *)
Definition published_is_cached (st : AppState) : Prop :=
  match cache st with
  | Some c => gmpData st = c_data c
  | None => True
  end.

(** [openDate > now] on a [Date] and a time value: an invalid date compares
    false. *)
Definition date_after (d : jsdate) (now : Z) : bool :=
  match d with
  | ValidDate t => now <? t
  | InvalidDate => false
  end.

(** Truthiness of a string field: [null] and [""] are falsy. *)
Definition truthy (v : option string) : bool :=
  match v with
  | Some s => negb (String.eqb s "")
  | None => false
  end.

(** [statsData.activeIPOs] (App.tsx, lines 239-242); [year] and [now] are
    the current year and the current time value. *)
Definition activeIPOs (year now : Z) (gmpData : list GmpDataItem) : nat :=
  length (filter (fun item =>
    match parseDate year (open item) with
    | Some openDate => date_after openDate now && negb (truthy (listing item))
    | None => false
    end) gmpData).

(** [statsData.upcomingIPOs] (App.tsx, lines 244-247). *)
Definition upcomingIPOs (year now : Z) (gmpData : list GmpDataItem) : nat :=
  length (filter (fun item =>
    match parseDate year (open item) with
    | Some openDate => date_after openDate now
    | None => true
    end) gmpData).

(** [handleSort] (App.tsx, lines 258-263) on the pair [(sortBy, sortOrder)]. *)
Definition handleSort (column : string) (s : string * SortOrder) : string * SortOrder :=
  let '(sortBy, prevOrder) := s in
  (column,
   if String.eqb sortBy column
   then match prevOrder with Asc => Desc | Desc => Asc end
   else Asc).

(** The numeric key of [sortData] on [price], [lot] and [ipo_size]:
    [parseFloat(v.replace(/[^0-9.-]+/g, '')) || 0]. *)
Definition numeric_key (k : string) (it : GmpDataItem) : jsnum :=
  JsNum.or0 (parseFloat (strip_non_numeric (or_empty (item_field k it)))).

Definition numeric_rank (k : string) (it : GmpDataItem) : Q :=
  match numeric_key k it with JNum q => q | _ => 0%Q end.

Definition numeric_fields : list string := ["price"; "lot"; "ipo_size"]%string.

(** The key of the [gmp] branch of [sortData]: ["-"] reads as ["0"], then
    [parseFloat(v) || 0] on the raw text (which may spell [Infinity]). *)
Definition gmp_key (it : GmpDataItem) : jsnum :=
  let v := or_empty (item_field "gmp" it) in
  JsNum.or0 (parseFloat (if String.eqb v "-" then "0"%string else v)).

(** The letter test of [span_letters]. *)
Definition is_letter (c : ascii) : bool :=
  let n := nat_of_ascii (lower_char c) in (97 <=? n)%nat && (n <=? 122)%nat.

(** The order of the extended reals on numbers that are not [NaN]. *)
Definition ext_le (x y : jsnum) : Prop :=
  match x, y with
  | JInf false, _ => True
  | _, JInf true => True
  | JNum a, JNum b => (a <= b)%Q
  | _, _ => False
  end.

(** * Theorems *)

(** ** The controller *)

Lemma fetchData_requests (now now_done : Z) (out : FetchOutcome) (st : AppState) :
  snd (fetchData now now_done out st) = if cache_fresh now st then [] else [api_url].
Proof.
  unfold fetchData, cache_fresh; destruct (cache st) as [c|]; [|reflexivity].
  destruct (now - c_timestamp c <? cacheDuration); reflexivity.
Qed.

(** C1 (amended).  The Refresh button calls [fetchData], the same function
    as the timer: it issues the network call exactly when there is no cache
    entry or the entry is at least [cacheDuration] (5 minutes) old;
    otherwise it only republishes the cached snapshot: [gmpData] becomes the
    cached data, and the cache entry and the error are kept. *)
Theorem refresh_fetches_iff_cache_stale (now now_done : Z) (out : FetchOutcome)
    (st : AppState) :
  (snd (fetchData now now_done out st) = [api_url] <->
     cache st = None \/
     exists c, cache st = Some c /\ cacheDuration <= now - c_timestamp c) /\
  (snd (fetchData now now_done out st) = [] <->
     exists c, cache st = Some c /\ now - c_timestamp c < cacheDuration) /\
  (forall c, cache st = Some c -> now - c_timestamp c < cacheDuration ->
     gmpData (fst (fetchData now now_done out st)) = c_data c /\
     cache (fst (fetchData now now_done out st)) = cache st /\
     error (fst (fetchData now now_done out st)) = error st).
Proof.
  assert (Hhit : forall c, cache st = Some c -> now - c_timestamp c < cacheDuration ->
     gmpData (fst (fetchData now now_done out st)) = c_data c /\
     cache (fst (fetchData now now_done out st)) = cache st /\
     error (fst (fetchData now now_done out st)) = error st).
  { intros c Hc Hlt. unfold fetchData. rewrite Hc.
    apply Z.ltb_lt in Hlt. cbv iota beta. rewrite Hlt.
    split; [reflexivity|split; [simpl; exact Hc|reflexivity]]. }
  rewrite <- and_assoc. split; [|exact Hhit]. clear Hhit.
  rewrite fetchData_requests; unfold cache_fresh.
  destruct (cache st) as [c|].
  - destruct (Z.ltb_spec (now - c_timestamp c) cacheDuration) as [Hlt|Hge].
    + split; split.
      * discriminate.
      * intros [H|[c' [H H']]]; [discriminate|]. injection H as <-. lia.
      * intros _. exists c. auto.
      * reflexivity.
    + split; split.
      * intros _. right. exists c. auto.
      * reflexivity.
      * discriminate.
      * intros [c' [H H']]. injection H as <-. lia.
  - split; split.
    + intros _. left. reflexivity.
    + reflexivity.
    + discriminate.
    + intros [c' [H _]]. discriminate.
Qed.

(** C1 (counterexample).  A Refresh click one second after a successful
    fetch issues no network call. *)
Lemma refresh_click_within_window_no_network_call :
  snd (fetchData 61000 61000 (Response 200 (JsonOk [])) (cached_state three_gmps 60000)) = [].
Proof. reflexivity. Qed.

(** C9.  When [fetchData] issues the network call and it fails (the fetch
    rejects, the status is not 2xx, or the body is not JSON), the error
    message is recorded and both [gmpData] and the cache entry are left as
    they were. *)
Theorem fetch_failure_keeps_data (now now_done : Z) (out : FetchOutcome) (st : AppState)
    (Hstale : cache_fresh now st = false) (Hfail : is_failure out = true) :
  let r := fetchData now now_done out st in
  snd r = [api_url] /\
  gmpData (fst r) = gmpData st /\
  cache (fst r) = cache st /\
  error (fst r) = Some (failure_message out) /\
  loading (fst r) = false /\ refreshing (fst r) = false.
Proof.
  cbv zeta.
  assert (Hfa : fst (fetchData now now_done out st) = fetch_and_store now_done out st).
  { unfold fetchData; unfold cache_fresh in Hstale.
    destruct (cache st) as [c|]; [rewrite Hstale|]; reflexivity. }
  rewrite fetchData_requests, Hstale, Hfa.
  unfold fetch_and_store, failure_message; destruct out as [msg|status body]; simpl in *.
  - repeat split; reflexivity.
  - destruct (ok_status status); simpl in *.
    + destruct body as [data|msg]; [discriminate|]. repeat split; reflexivity.
    + repeat split; reflexivity.
Qed.

Lemma fetch_failure_keeps_data_witness :
  cache_fresh 400000 (cached_state three_gmps 60000) = false /\
  is_failure (Response 503 (JsonOk [])) = true /\
  gmpData (fst (fetchData 400000 400100 (Response 503 (JsonOk []))
                  (cached_state three_gmps 60000))) = three_gmps.
Proof.
  refine (conj eq_refl (conj eq_refl _)).
  exact (proj1 (proj2 (fetch_failure_keeps_data 400000 400100 (Response 503 (JsonOk []))
                         (cached_state three_gmps 60000) eq_refl eq_refl))).
Defined.

(** C4.  With a cache entry younger than [cacheDuration], [fetchData]
    republishes the cached snapshot, issues no network call and leaves the
    cache and the error as they were; hence, from a state without a fresh
    entry, a successful fetch followed by a second call within the window
    issues exactly one network call in total. *)
Theorem cache_hit_short_circuits (now now_done : Z) (out : FetchOutcome) (st : AppState)
    (c : CacheEntry) (Hc : cache st = Some c) (Hage : now - c_timestamp c < cacheDuration) :
  (let r := fetchData now now_done out st in
   snd r = [] /\ gmpData (fst r) = c_data c /\ cache (fst r) = cache st /\
   error (fst r) = error st /\ loading (fst r) = false /\ refreshing (fst r) = false) /\
  (forall (st0 : AppState) (t0 t1 t2 t3 status : Z) (data : list GmpDataItem)
          (out2 : FetchOutcome),
     cache_fresh t0 st0 = false -> ok_status status = true -> t2 - t1 < cacheDuration ->
     let r1 := fetchData t0 t1 (Response status (JsonOk data)) st0 in
     let r2 := fetchData t2 t3 out2 (fst r1) in
     length (snd r1 ++ snd r2) = 1%nat).
Proof.
  split.
  - cbv zeta. unfold fetchData. rewrite Hc.
    destruct (Z.ltb_spec (now - c_timestamp c) cacheDuration); [|lia].
    repeat split; simpl; rewrite ?Hc; reflexivity.
  - intros st0 t0 t1 t2 t3 status data out2 Hstale Hok Hwin. cbv zeta.
    rewrite !fetchData_requests, Hstale.
    assert (Hfa : fst (fetchData t0 t1 (Response status (JsonOk data)) st0) =
                  fetch_and_store t1 (Response status (JsonOk data)) st0).
    { unfold fetchData; unfold cache_fresh in Hstale.
      destruct (cache st0) as [c0|]; [rewrite Hstale|]; reflexivity. }
    rewrite Hfa. unfold fetch_and_store, cache_fresh; rewrite Hok; simpl.
    destruct (Z.ltb_spec (t2 - t1) cacheDuration); [reflexivity|lia].
Qed.

Lemma cache_hit_short_circuits_witness :
  snd (fetchData 61000 61000 (NetworkError None) (cached_state three_gmps 60000)) = [].
Proof.
  exact (proj1 (proj1 (cache_hit_short_circuits 61000 61000 (NetworkError None)
            (cached_state three_gmps 60000) {| c_data := three_gmps; c_timestamp := 60000 |}
            eq_refl ltac:(cbv; reflexivity)))).
Defined.

(** ** Statistics *)

(** C3 (code bug).  [avgGMP] divides the sum over the non-placeholder
    records by the number of all records: on GMP values ["100"], ["-"],
    ["50"] it is 50, not 75. *)
Theorem avgGMP_three_gmps : avgGMP three_gmps = JNum 50.
Proof. vm_compute. reflexivity. Qed.

Lemma avgGMP_divides_by_all_records (data : list GmpDataItem) :
  avgGMP data =
  JsNum.div
    (fold_left (fun acc curr => JsNum.add acc (JsNum.or0 (parseFloat (gmp curr))))
               (filter (fun item => negb (String.eqb (gmp item) "-")) data) (JNum 0))
    (JsNum.of_Z (Z.of_nat (length data))).
Proof. reflexivity. Qed.

(** ** Sorting *)

Section SortLemmas.

Context {A : Type} (cmp : A -> A -> jsnum).

Lemma insert_by_perm (x : A) (l : list A) : Permutation (x :: l) (insert_by cmp x l).
Proof.
  induction l as [|y l IH]; simpl; [reflexivity|].
  destruct (JsNum.lt0 (cmp x y)); [reflexivity|].
  rewrite perm_swap. constructor. exact IH.
Qed.

Lemma fold_insert_perm (l acc : list A) :
  Permutation (l ++ acc) (fold_left (fun acc x => insert_by cmp x acc) l acc).
Proof.
  revert acc; induction l as [|x l IH]; intros acc; simpl; [reflexivity|].
  rewrite <- IH. rewrite <- insert_by_perm. apply Permutation_middle.
Qed.

Lemma array_sort_perm (l : list A) : Permutation l (array_sort cmp l).
Proof.
  unfold array_sort. rewrite <- fold_insert_perm. rewrite app_nil_r. reflexivity.
Qed.

Variable p : A -> bool.
Hypothesis Hkeep : forall x y, p x = true -> p y = false -> JsNum.lt0 (cmp x y) = false.
Hypothesis Hjump : forall x y, p x = false -> p y = true -> JsNum.lt0 (cmp x y) = true.

Lemma insert_by_partitioned (x : A) (l : list A) :
  partitioned p l = true -> partitioned p (insert_by cmp x l) = true.
Proof.
  induction l as [|y l IH]; intros Hl; simpl.
  - destruct (p x); reflexivity.
  - destruct (JsNum.lt0 (cmp x y)) eqn:Ec; simpl.
    + destruct (p x) eqn:Ex.
      * destruct (p y) eqn:Ey; [|rewrite (Hkeep x y Ex Ey) in Ec; discriminate].
        simpl in Hl; rewrite Ey in Hl; exact Hl.
      * exact Hl.
    + simpl in Hl. destruct (p y) eqn:Ey.
      * destruct (p x) eqn:Ex; [|rewrite (Hjump x y Ex Ey) in Ec; discriminate].
        apply forallb_forall. intros z Hz.
        apply (Permutation_in _ (Permutation_sym (insert_by_perm x l))) in Hz.
        destruct Hz as [<-|Hz]; [exact Ex|].
        rewrite forallb_forall in Hl. apply Hl, Hz.
      * apply IH, Hl.
Qed.

Lemma array_sort_partitioned (l : list A) : partitioned p (array_sort cmp l) = true.
Proof.
  unfold array_sort. assert (H : partitioned p [] = true) by reflexivity.
  revert H. generalize (@nil A). induction l as [|x l IH]; intros acc Hacc; simpl.
  - exact Hacc.
  - apply IH, insert_by_partitioned, Hacc.
Qed.

End SortLemmas.

(** C7.  [sortData] returns a permutation of its input; it sorts a copy
    ([[...data]]), so the model is a pure function of the input. *)
Theorem sortData_permutation (localeCompare : string -> string -> Z) (year : Z)
    (data : list GmpDataItem) (sortBy : string) (sortOrder : SortOrder) :
  Permutation data (sortData localeCompare year data sortBy sortOrder).
Proof. apply array_sort_perm. Qed.

Lemma filter_idem {A : Type} (f : A -> bool) (l : list A) :
  filter f (filter f l) = filter f l.
Proof.
  induction l as [|x l IH]; simpl; [reflexivity|].
  destruct (f x) eqn:E; simpl; [rewrite E, IH|]; [reflexivity|exact IH].
Qed.

(** C8.  The search filter keeps the records whose HTML-decoded, lower-cased
    name contains the lower-cased query; the empty query keeps every record
    in order, and filtering twice with the same query is filtering once. *)
Theorem filterData_empty_and_idempotent (textContent innerText : string -> string) :
  (forall data q,
     filterData textContent innerText data q =
     filter (fun item => includes (chars (toLowerCase (decodeHTML textContent innerText (ipo item))))
                                  (chars (toLowerCase q))) data) /\
  (forall data, filterData textContent innerText data "" = data) /\
  (forall data q,
     filterData textContent innerText (filterData textContent innerText data q) q =
     filterData textContent innerText data q).
Proof.
  split; [reflexivity|split].
  - intros data. unfold filterData.
    assert (Hn : forall l, includes l (chars (toLowerCase "")) = true)
      by (intros [|c l]; reflexivity).
    induction data as [|x data IH]; [reflexivity|].
    cbn [filter]. rewrite Hn, IH. reflexivity.
  - intros data q. apply filter_idem.
Qed.

Lemma compare_items_date (lc : string -> string -> Z) (year : Z) (k : string)
    (ord : SortOrder) (a b : GmpDataItem) (Hk : In k date_fields) :
  compare_items lc year k ord a b =
  match parseDate year (Some (or_empty (item_field k a))),
        parseDate year (Some (or_empty (item_field k b))) with
  | None, None => JsNum.of_Z 0
  | None, Some _ => match ord with Asc => JsNum.of_Z 1 | Desc => JsNum.of_Z (-1) end
  | Some _, None => match ord with Asc => JsNum.of_Z (-1) | Desc => JsNum.of_Z 1 end
  | Some aDate, Some bDate =>
      match ord with
      | Asc => JsNum.sub (getTime aDate) (getTime bDate)
      | Desc => JsNum.sub (getTime bDate) (getTime aDate)
      end
  end.
Proof.
  unfold date_fields in Hk; simpl in Hk.
  destruct ord; repeat (destruct Hk as [<-|Hk]; [reflexivity|]); destruct Hk.
Qed.

(** C2 (counterexample).  On the date field [open], a record with no open
    date compares after a dated one in ascending order but before it in
    descending order, so the descending sort puts it first. *)
Lemma unparseable_date_first_when_descending :
  let dated := sample_item "A" "1" (Some "23-Dec"%string) in
  let undated := sample_item "B" "1" None in
  compare_items byte_compare 2026 "open" Asc undated dated = JsNum.of_Z 1 /\
  compare_items byte_compare 2026 "open" Desc undated dated = JsNum.of_Z (-1) /\
  map ipo (sortData byte_compare 2026 [dated; undated] "open" Desc) = ["B"; "A"]%string.
Proof. vm_compute. repeat split. Qed.

(** C2 (amended).  On a date field, when exactly one of two records has an
    unparseable date, the comparator gives the unparseable one [+1] in
    ascending and [-1] in descending order: the sign flips with the
    direction.  Unparseable dates therefore end up after all parseable
    ones in an ascending sort and before all of them in a descending sort. *)
Theorem sortData_unparseable_dates_follow_direction (lc : string -> string -> Z)
    (year : Z) (k : string) (Hk : In k date_fields) :
  (forall ord a b,
     date_unparseable year k a = true -> date_unparseable year k b = false ->
     compare_items lc year k ord a b =
       JsNum.of_Z (match ord with Asc => 1 | Desc => -1 end) /\
     compare_items lc year k ord b a =
       JsNum.of_Z (match ord with Asc => -1 | Desc => 1 end)) /\
  (forall data, partitioned (date_unparseable year k) (sortData lc year data k Asc) = true) /\
  (forall data,
     partitioned (fun it => negb (date_unparseable year k it))
                 (sortData lc year data k Desc) = true).
Proof.
  assert (Hcmp : forall ord a b,
     date_unparseable year k a = true -> date_unparseable year k b = false ->
     compare_items lc year k ord a b =
       JsNum.of_Z (match ord with Asc => 1 | Desc => -1 end) /\
     compare_items lc year k ord b a =
       JsNum.of_Z (match ord with Asc => -1 | Desc => 1 end)).
  { intros ord a b Ha Hb. unfold date_unparseable in Ha, Hb.
    rewrite !compare_items_date by exact Hk.
    destruct (parseDate year (Some (or_empty (item_field k a)))); [discriminate|].
    destruct (parseDate year (Some (or_empty (item_field k b)))); [|discriminate].
    destruct ord; split; reflexivity. }
  split; [exact Hcmp|split]; intros data; apply array_sort_partitioned.
  - intros x y Hx Hy. rewrite (proj1 (Hcmp Asc x y Hx Hy)). reflexivity.
  - intros x y Hx Hy. rewrite (proj2 (Hcmp Asc y x Hy Hx)). reflexivity.
  - intros x y Hx Hy. apply negb_true_iff in Hx. apply negb_false_iff in Hy.
    rewrite (proj2 (Hcmp Desc y x Hy Hx)). reflexivity.
  - intros x y Hx Hy. apply negb_false_iff in Hx. apply negb_true_iff in Hy.
    rewrite (proj1 (Hcmp Desc x y Hx Hy)). reflexivity.
Qed.

Lemma sortData_unparseable_dates_follow_direction_witness :
  In "open"%string date_fields /\
  partitioned (fun it => negb (date_unparseable 2026 "open" it))
    (sortData byte_compare 2026
       [sample_item "A" "1" (Some "23-Dec"%string); sample_item "B" "1" None] "open" Desc) = true.
Proof.
  assert (Hk : In "open"%string date_fields) by (simpl; auto).
  exact (conj Hk (proj2 (proj2 (sortData_unparseable_dates_follow_direction
                                  byte_compare 2026 "open" Hk)) _)).
Defined.

(** ** Formatters *)

Lemma priceFormatter_format_not_dash (x : jsnum) : priceFormatter_format x <> "-"%string.
Proof.
  destruct x as [q|pos|]; unfold priceFormatter_format.
  - destruct (JsNum.Qlt_bool q 0); simpl; discriminate.
  - destruct pos; simpl; discriminate.
  - simpl; discriminate.
Qed.

(** C6.  [formatPrice] returns ["-"] exactly when its input is [null],
    ["--"], or a string whose digits, dots and minus signs do not parse as a
    number; otherwise it returns the rupee formatting of the parsed number. *)
Theorem formatPrice_sentinel_iff (p : option string) :
  (formatPrice p = "-"%string <->
     p = None \/ p = Some "--"%string \/
     exists s, p = Some s /\ JsNum.isNaN (parseFloat (strip_non_numeric s)) = true) /\
  (forall s, p = Some s -> s <> "--"%string ->
     JsNum.isNaN (parseFloat (strip_non_numeric s)) = false ->
     formatPrice p = priceFormatter_format (parseFloat (strip_non_numeric s))).
Proof.
  split.
  - split.
    + destruct p as [s|]; [|intros _; left; reflexivity]. unfold formatPrice.
      destruct (String.eqb_spec s "") as [->|Hne].
      * intros _. right; right. exists ""%string. split; reflexivity.
      * destruct (String.eqb_spec s "--") as [->|Hne2]; simpl.
        -- intros _. right; left; reflexivity.
        -- destruct (JsNum.isNaN (parseFloat (strip_non_numeric s))) eqn:En.
           ++ intros _. right; right. exists s. auto.
           ++ intros H. exfalso. exact (priceFormatter_format_not_dash _ H).
    + intros [->|[->|[s [-> Hs]]]]; [reflexivity|reflexivity|].
      unfold formatPrice. rewrite Hs.
      destruct (String.eqb s "" || String.eqb s "--"); reflexivity.
  - intros s -> Hne Hs. unfold formatPrice.
    destruct (String.eqb_spec s "") as [->|Hne1]; [discriminate Hs|].
    destruct (String.eqb_spec s "--") as [->|Hne2]; [contradiction|].
    simpl. rewrite Hs. reflexivity.
Qed.

(** C10.  [formatIPOSize] answers ["-"] for [""] and ["--"] whatever the
    DOM decodes; for any other input it returns the decoded string when that
    has no numeric token, and the rupee formatting followed by [" Cr"]
    otherwise. *)
Theorem formatIPOSize_placeholder_before_decoding (textContent innerText : string -> string) :
  formatIPOSize textContent innerText "" = "-"%string /\
  formatIPOSize textContent innerText "--" = "-"%string /\
  (forall size, size <> ""%string -> size <> "--"%string ->
     num_match (chars (decodeHTML textContent innerText size)) = None ->
     formatIPOSize textContent innerText size = decodeHTML textContent innerText size) /\
  (forall size tok, size <> ""%string -> size <> "--"%string ->
     num_match (chars (decodeHTML textContent innerText size)) = Some tok ->
     formatIPOSize textContent innerText size =
       (priceFormatter_format (parseFloat (str (filter (fun c => negb (Ascii.eqb c ",")) tok)))
        ++ " Cr")%string).
Proof.
  split; [reflexivity|split; [reflexivity|split]].
  - intros size H1 H2 Hm. unfold formatIPOSize.
    destruct (String.eqb_spec size "") as [->|_]; [contradiction|].
    destruct (String.eqb_spec size "--") as [->|_]; [contradiction|].
    simpl. rewrite Hm. reflexivity.
  - intros size tok H1 H2 Hm. unfold formatIPOSize.
    destruct (String.eqb_spec size "") as [->|_]; [contradiction|].
    destruct (String.eqb_spec size "--") as [->|_]; [contradiction|].
    simpl. rewrite Hm. reflexivity.
Qed.

Example formatPrice_examples :
  formatPrice (Some "1,234.50"%string) = "₹1,235"%string /\
  formatPrice (Some "--"%string) = "-"%string /\ formatPrice None = "-"%string.
Proof. vm_compute. repeat split. Qed.

(** ** The date parser *)

Lemma digit_char_ok (r : Z) (Hr : 0 <= r < 10) :
  is_digit (ascii_of_nat (Z.to_nat (r + 48))) = true /\
  digit_val (ascii_of_nat (Z.to_nat (r + 48))) = r.
Proof.
  assert (r = 0 \/ r = 1 \/ r = 2 \/ r = 3 \/ r = 4 \/ r = 5 \/ r = 6 \/ r = 7 \/ r = 8 \/ r = 9)
    as Hc by lia.
  repeat (destruct Hc as [->|Hc]; [split; reflexivity|]); subst; split; reflexivity.
Qed.

Lemma digits_value_snoc (ds : list ascii) (c : ascii) :
  digits_value (ds ++ [c]) = digits_value ds * 10 + digit_val c.
Proof. unfold digits_value. rewrite fold_left_app. reflexivity. Qed.

Lemma pos_digits_spec (fuel : nat) : forall (n : Z) (acc : list ascii),
  (0 < fuel)%nat -> 0 <= n < 10 ^ Z.of_nat fuel ->
  exists ds, pos_digits fuel n acc = ds ++ acc /\ ds <> [] /\
             forallb is_digit ds = true /\ digits_value ds = n.
Proof.
  induction fuel as [|fuel IH]; intros n acc Hf Hn; [lia|].
  destruct (digit_char_ok (n mod 10)) as [Hd Hv]; [apply Z.mod_pos_bound; lia|].
  simpl. destruct (Z.ltb_spec n 10) as [Hlt|Hge].
  - exists [ascii_of_nat (Z.to_nat (n mod 10 + 48))]. repeat split.
    + discriminate.
    + simpl. rewrite Hd. reflexivity.
    + unfold digits_value. simpl. rewrite Hv. rewrite Z.mod_small by lia. reflexivity.
  - assert (Hq : 0 <= n / 10 < 10 ^ Z.of_nat fuel).
    { split; [apply Z.div_pos; lia|].
      apply Z.div_lt_upper_bound; [lia|].
      rewrite Nat2Z.inj_succ, Z.pow_succ_r in Hn by lia. lia. }
    assert (Hf' : (0 < fuel)%nat).
    { destruct fuel; [|lia]. simpl in Hq. assert (1 <= n / 10) by (apply Z.div_le_lower_bound; lia).
      lia. }
    destruct (IH (n / 10) (ascii_of_nat (Z.to_nat (n mod 10 + 48)) :: acc) Hf' Hq)
      as [ds [Heq [Hne [Hall Hval]]]].
    exists (ds ++ [ascii_of_nat (Z.to_nat (n mod 10 + 48))]). repeat split.
    + rewrite Heq, <- app_assoc. reflexivity.
    + destruct ds; [contradiction|discriminate].
    + rewrite forallb_app, Hall. simpl. rewrite Hd. reflexivity.
    + rewrite digits_value_snoc, Hval, Hv. pose proof (Z.div_mod n 10). lia.
Qed.

Lemma z_dec_spec (y : Z) (Hy : 0 <= y) :
  exists ds, z_dec y = ds /\ ds <> [] /\ forallb is_digit ds = true /\ digits_value ds = y.
Proof.
  unfold z_dec. destruct (Z.ltb_spec y 0) as [Hlt|_]; [lia|].
  pose proof (Z.log2_nonneg y) as Hl.
  destruct (pos_digits_spec (Z.to_nat (Z.log2 y + 1)) y []) as [ds [H1 H2]].
  - lia.
  - split; [exact Hy|]. rewrite Z2Nat.id by lia.
    apply Z.lt_le_trans with (2 ^ (Z.log2 y + 1)).
    + destruct (Z.eq_dec y 0) as [->|Hne]; [reflexivity|].
      apply Z.log2_spec. lia.
    + apply Z.pow_le_mono_l. lia.
  - exists ds. rewrite H1, app_nil_r. auto.
Qed.

Lemma span_digits_all (ds : list ascii) :
  forallb is_digit ds = true -> span_digits ds = (ds, []).
Proof.
  induction ds as [|c ds IH]; simpl; [reflexivity|].
  intros H. apply andb_true_iff in H as [Hc Hds]. rewrite Hc, IH by exact Hds. reflexivity.
Qed.

Lemma date_of_string_dec23 (ds : list ascii) (Hne : ds <> []) (Hd : forallb is_digit ds = true) :
  date_of_string (chars "Dec 23, " ++ ds) = ValidDate (time_value (digits_value ds) 12 23 0 0).
Proof.
  unfold date_of_string. simpl. rewrite (span_digits_all ds Hd).
  destruct ds as [|c ds']; [contradiction|]. reflexivity.
Qed.

Lemma civil_from_days_split (era doe : Z) (H : 0 <= doe < 146097) :
  civil_from_days (era * 146097 + doe - 719468) =
  (let yoe := (doe - doe / 1460 + doe / 36524 - doe / 146096) / 365 in
   let y := yoe + era * 400 in
   let doy := doe - (365 * yoe + yoe / 4 - yoe / 100) in
   let mp := (5 * doy + 2) / 153 in
   let d := doy - (153 * mp + 2) / 5 + 1 in
   let m := if mp <? 10 then mp + 3 else mp - 9 in
   (if m <=? 2 then y + 1 else y, m, d)).
Proof.
  unfold civil_from_days. cbv zeta.
  replace (era * 146097 + doe - 719468 + 719468) with (doe + era * 146097) by ring.
  rewrite Z.div_add, (Z.div_small doe) by lia. simpl (0 + era).
  replace (doe + era * 146097 - era * 146097) with doe by ring. reflexivity.
Qed.

Lemma dec23_ok_era : forallb dec23_ok (map Z.of_nat (seq 0 400)) = true.
Proof. vm_compute. reflexivity. Qed.

Lemma dec23_ok_all (yoe : Z) (H : 0 <= yoe < 400) : dec23_ok yoe = true.
Proof.
  pose proof dec23_ok_era as Hall. rewrite forallb_forall in Hall.
  apply Hall. replace yoe with (Z.of_nat (Z.to_nat yoe)) by lia.
  apply in_map, in_seq. lia.
Qed.

Lemma civil_dec23 (y : Z) : civil_from_days (days_from_civil y 12 23) = (y, 12, 23).
Proof.
  assert (Hd : days_from_civil y 12 23 =
               (y / 400) * 146097 + dec23_doe (y - y / 400 * 400) - 719468)
    by reflexivity.
  assert (Hy : 0 <= y - y / 400 * 400 < 400)
    by (pose proof (Z.mod_eq y 400); pose proof (Z.mod_pos_bound y 400); lia).
  pose proof (dec23_ok_all _ Hy) as Hok. unfold dec23_ok in Hok. cbv zeta in Hok.
  set (yoe := y - y / 400 * 400) in *. set (doe := dec23_doe yoe) in *.
  repeat rewrite andb_true_iff in Hok.
  destruct Hok as [[[[H0 H1] H2] H3] H4].
  apply Z.leb_le in H0. apply Z.ltb_lt in H1.
  apply Z.eqb_eq in H2. apply Z.eqb_eq in H3. apply Z.eqb_eq in H4.
  rewrite Hd, civil_from_days_split by lia. cbv zeta.
  rewrite H2 in *. rewrite H3, H4.
  change (12 <=? 2) with false. cbv iota. subst yoe. f_equal. f_equal. ring.
Qed.

Lemma parseDate_dd_mmm_23_dec (year : Z) :
  parseDate year (Some "23-Dec"%string) = Some (date_of_string (chars "Dec 23, " ++ z_dec year)).
Proof. reflexivity. Qed.

(** C5.  [parseDate] is total (every JS operation it performs returns): its
    result is a [Date] or the [null] sentinel.  It is [null] for [null], for
    [""] and for every string containing neither '-' nor ':'; and
    ["23-Dec"] gives 23 December of the current year [year]. *)
Theorem parseDate_sentinels_and_23_dec (year : Z) (Hyear : 0 <= year) :
  parseDate year None = None /\
  parseDate year (Some ""%string) = None /\
  (forall s, includes_char "-" (chars s) = false -> includes_char ":" (chars s) = false ->
     parseDate year (Some s) = None) /\
  (exists d, parseDate year (Some "23-Dec"%string) = Some d /\
     getFullYear d = Some year /\ getMonth d = Some 11 /\ getDate d = Some 23).
Proof.
  split; [reflexivity|split; [reflexivity|split]].
  - intros s H1 H2. unfold parseDate. cbv zeta. rewrite H1, H2.
    destruct (chars s); reflexivity.
  - destruct (z_dec_spec year Hyear) as [ds [Hz [Hne [Hd Hv]]]].
    rewrite parseDate_dd_mmm_23_dec, Hz, (date_of_string_dec23 ds Hne Hd), Hv.
    eexists; split; [reflexivity|].
    unfold getFullYear, getMonth, getDate, time_value.
    replace ((days_from_civil year 12 23 * ms_per_day + 0 * 3600000 + 0 * 60000) / ms_per_day)
      with (days_from_civil year 12 23)
      by (rewrite !Z.mul_0_l, !Z.add_0_r, Z.div_mul; [reflexivity|discriminate]).
    rewrite civil_dec23. repeat split.
Qed.

Lemma parseDate_sentinels_and_23_dec_witness :
  0 <= 2026 /\ parseDate 2026 (Some "ABC"%string) = None.
Proof.
  assert (H : 0 <= 2026) by lia.
  exact (conj H (proj1 (proj2 (proj2 (parseDate_sentinels_and_23_dec 2026 H))) "ABC"%string
                   eq_refl eq_refl)).
Defined.

Example parseDate_examples :
  parseDate 2026 (Some "18-Dec 16:01"%string) =
    Some (ValidDate (time_value 2026 12 18 16 1)) /\
  parseDate 2026 (Some "foo-bar"%string) = Some InvalidDate /\
  parseDate 2026 (Some ""%string) = None.
Proof. vm_compute. repeat split. Qed.

(** ** Further properties of the sort *)

(** On every field, the descending comparator is the ascending one with its
    arguments swapped. *)
Theorem compare_items_desc_swaps_asc (lc : string -> string -> Z) (year : Z)
    (k : string) (a b : GmpDataItem) :
  compare_items lc year k Desc a b = compare_items lc year k Asc b a.
Proof.
  unfold compare_items. cbv zeta.
  destruct (String.eqb k "price" || String.eqb k "lot" || String.eqb k "ipo_size");
    [reflexivity|].
  destruct (String.eqb k "gmp"); [reflexivity|].
  destruct (existsb (String.eqb k) date_fields); [|reflexivity].
  destruct (parseDate year (Some (or_empty (item_field k a))));
    destruct (parseDate year (Some (or_empty (item_field k b)))); reflexivity.
Qed.

Section SortedInsert.

Context {A : Type} (cmp : A -> A -> jsnum) (R : A -> A -> Prop).
Hypothesis Hbefore : forall x y, JsNum.lt0 (cmp x y) = true -> R x y.
Hypothesis Hafter : forall x y, JsNum.lt0 (cmp x y) = false -> R y x.

Lemma insert_by_hdrel (x y : A) (l : list A) :
  HdRel R y l -> R y x -> HdRel R y (insert_by cmp x l).
Proof.
  destruct l as [|z l]; simpl; intros H Hyx; [constructor; exact Hyx|].
  destruct (JsNum.lt0 (cmp x z)); constructor; [exact Hyx|inversion H; assumption].
Qed.

Lemma insert_by_sorted (x : A) (l : list A) : Sorted R l -> Sorted R (insert_by cmp x l).
Proof.
  induction l as [|y l IH]; simpl; intros Hs; [repeat constructor|].
  destruct (JsNum.lt0 (cmp x y)) eqn:E.
  - constructor; [exact Hs|constructor; apply Hbefore, E].
  - inversion Hs; subst. constructor; [apply IH; assumption|].
    apply insert_by_hdrel; [assumption|apply Hafter, E].
Qed.

Lemma array_sort_sorted (l : list A) : Sorted R (array_sort cmp l).
Proof.
  unfold array_sort.
  assert (H : Sorted R []) by constructor. revert H.
  generalize (@nil A). induction l as [|x l IH]; intros acc Hacc; simpl; [exact Hacc|].
  apply IH, insert_by_sorted, Hacc.
Qed.

End SortedInsert.

Lemma allowed_not_ws (c : ascii) :
  is_digit c || Ascii.eqb c "." || Ascii.eqb c "-" = true -> is_ws c = false.
Proof.
  destruct c as [[] [] [] [] [] [] [] []]; intros H; try discriminate H; reflexivity.
Qed.

Lemma allowed_not_I (c : ascii) :
  is_digit c || Ascii.eqb c "." || Ascii.eqb c "-" = true -> Ascii.eqb "I" c = false.
Proof.
  destruct c as [[] [] [] [] [] [] [] []]; intros H; try discriminate H; reflexivity.
Qed.

Lemma or0_finite (x : jsnum) : (forall p, x <> JInf p) -> exists q, JsNum.or0 x = JNum q.
Proof.
  destruct x as [q|p|]; intros H; simpl.
  - destruct (Qeq_bool q 0); eexists; reflexivity.
  - exfalso. exact (H p eq_refl).
  - eexists; reflexivity.
Qed.

(** [parseFloat] never yields an infinity on a stripped string. *)
Lemma parseFloat_stripped_not_inf (s : string) (p : bool) :
  parseFloat (strip_non_numeric s) <> JInf p.
Proof.
  set (allowed := fun c => is_digit c || Ascii.eqb c "." || Ascii.eqb c "-").
  unfold parseFloat, strip_non_numeric, str, chars.
  rewrite list_ascii_of_string_of_list_ascii. fold allowed.
  assert (Hall : forallb allowed (filter allowed (list_ascii_of_string s)) = true).
  { apply forallb_forall. intros c Hc. apply filter_In in Hc. apply Hc. }
  revert Hall. generalize (filter allowed (list_ascii_of_string s)). intros l Hl.
  assert (Hws : skip_ws l = l).
  { destruct l as [|c l]; [reflexivity|]. simpl. simpl in Hl.
    apply andb_true_iff in Hl as [Hc _]. rewrite (allowed_not_ws c Hc). reflexivity. }
  rewrite Hws.
  assert (Hnoinf : forall l', forallb allowed l' = true ->
                   is_prefix (list_ascii_of_string "Infinity") l' = false).
  { intros [|c l'] H; [reflexivity|]. simpl in H. apply andb_true_iff in H as [Hc _].
    destruct c as [[] [] [] [] [] [] [] []]; try discriminate Hc; reflexivity. }
  assert (Hsign : exists neg l', forallb allowed l' = true /\
            match l with
            | "-"%char :: r => (true, r)
            | "+"%char :: r => (false, r)
            | _ => (false, l)
            end = (neg, l')).
  { destruct l as [|c l]; [exists false, []; split; reflexivity|].
    pose proof Hl as Hl0. simpl in Hl. apply andb_true_iff in Hl as [Hc Hl].
    destruct (Ascii.eqb c "-") eqn:Em.
    - apply Ascii.eqb_eq in Em. subst c. exists true, l. split; [exact Hl|reflexivity].
    - exists false, (c :: l). split; [exact Hl0|].
      destruct c as [[] [] [] [] [] [] [] []]; try discriminate Hc; try discriminate Em;
        reflexivity. }
  destruct Hsign as [neg [l' [Hl' ->]]].
  rewrite (Hnoinf l' Hl').
  destruct (span_digits l') as [ip r].
  destruct (match r with
            | "."%char :: r' => span_digits r'
            | _ => ([], r) end) as [fp r'].
  destruct ip, fp; discriminate.
Qed.

Lemma numeric_key_rank (k : string) (it : GmpDataItem) :
  numeric_key k it = JNum (numeric_rank k it).
Proof.
  unfold numeric_rank.
  destruct (or0_finite (parseFloat (strip_non_numeric (or_empty (item_field k it)))))
    as [q Hq]; [apply parseFloat_stripped_not_inf|].
  unfold numeric_key. rewrite Hq. reflexivity.
Qed.

Lemma compare_items_numeric (lc : string -> string -> Z) (year : Z) (k : string)
    (a b : GmpDataItem) (Hk : In k numeric_fields) :
  compare_items lc year k Asc a b = JsNum.sub (numeric_key k a) (numeric_key k b) /\
  compare_items lc year k Desc a b = JsNum.sub (numeric_key k b) (numeric_key k a).
Proof.
  unfold numeric_fields in Hk; simpl in Hk.
  repeat (destruct Hk as [<-|Hk]; [split; reflexivity|]); destruct Hk.
Qed.

Lemma lt0_sub_JNum (x y : Q) :
  JsNum.lt0 (JsNum.sub (JNum x) (JNum y)) = true <-> (x < y)%Q.
Proof.
  unfold JsNum.sub, JsNum.add, JsNum.neg, JsNum.lt0, JsNum.Qlt_bool.
  assert (E : Qred (x + Qred (- y)) == x - y) by (rewrite !Qred_correct; ring).
  destruct (Qle_bool 0 (Qred (x + Qred (- y)))) eqn:H; simpl.
  - apply Qle_bool_iff in H. rewrite E in H. split; [discriminate|lra].
  - split; [intros _|reflexivity].
    assert (H' : ~ (0 <= Qred (x + Qred (- y)))%Q)
      by (intros H'; apply Qle_bool_iff in H'; congruence).
    rewrite E in H'. lra.
Qed.

(** Sorting on [price], [lot] or [ipo_size] orders the records by their
    numeric key ([parseFloat] of the digits, dots and minus signs, [0] when
    that fails): non-decreasing ascending, non-increasing descending. *)
Theorem sortData_numeric_fields_sorted (lc : string -> string -> Z) (year : Z)
    (k : string) (Hk : In k numeric_fields) (data : list GmpDataItem) :
  Sorted (fun a b => (numeric_rank k a <= numeric_rank k b)%Q) (sortData lc year data k Asc) /\
  Sorted (fun a b => (numeric_rank k b <= numeric_rank k a)%Q) (sortData lc year data k Desc).
Proof.
  split; unfold sortData; apply array_sort_sorted.
  - intros x y H. rewrite (proj1 (compare_items_numeric lc year k x y Hk)),
      !numeric_key_rank in H. apply lt0_sub_JNum in H. lra.
  - intros x y H. rewrite (proj1 (compare_items_numeric lc year k x y Hk)),
      !numeric_key_rank in H.
    destruct (Qlt_le_dec (numeric_rank k x) (numeric_rank k y)) as [Hlt|Hle]; [|exact Hle].
    apply lt0_sub_JNum in Hlt. congruence.
  - intros x y H. rewrite (proj2 (compare_items_numeric lc year k x y Hk)),
      !numeric_key_rank in H. apply lt0_sub_JNum in H. lra.
  - intros x y H. rewrite (proj2 (compare_items_numeric lc year k x y Hk)),
      !numeric_key_rank in H.
    destruct (Qlt_le_dec (numeric_rank k y) (numeric_rank k x)) as [Hlt|Hle]; [|exact Hle].
    apply lt0_sub_JNum in Hlt. congruence.
Qed.

Lemma sortData_numeric_fields_sorted_witness :
  In "price"%string numeric_fields /\
  Sorted (fun a b => (numeric_rank "price" a <= numeric_rank "price" b)%Q)
    (sortData byte_compare 2026 three_gmps "price" Asc).
Proof.
  assert (Hk : In "price"%string numeric_fields) by (simpl; auto).
  exact (conj Hk (proj1 (sortData_numeric_fields_sorted byte_compare 2026 "price" Hk three_gmps))).
Defined.

(** ** Further properties of the formatters *)

Lemma formatPrice_Some (s : string) :
  formatPrice (Some s) =
  if JsNum.isNaN (parseFloat (strip_non_numeric s)) then "-"%string
  else priceFormatter_format (parseFloat (strip_non_numeric s)).
Proof.
  unfold formatPrice.
  destruct (String.eqb_spec s "") as [->|_]; [reflexivity|].
  destruct (String.eqb_spec s "--") as [->|_]; reflexivity.
Qed.

(** [formatPrice] of a string depends only on its digits, dots and minus
    signs: currency signs, grouping commas, spaces and units are ignored. *)
Theorem formatPrice_ignores_other_chars (s1 s2 : string)
    (H : strip_non_numeric s1 = strip_non_numeric s2) :
  formatPrice (Some s1) = formatPrice (Some s2).
Proof. rewrite !formatPrice_Some, H. reflexivity. Qed.

Lemma formatPrice_ignores_other_chars_witness :
  strip_non_numeric "₹ 1,234 /share" = strip_non_numeric "1234" /\
  formatPrice (Some "₹ 1,234 /share"%string) = formatPrice (Some "1234"%string).
Proof.
  assert (H : strip_non_numeric "₹ 1,234 /share" = strip_non_numeric "1234") by reflexivity.
  exact (conj H (formatPrice_ignores_other_chars _ _ H)).
Defined.

(** ** Further properties of the controller *)

(** Every call of [fetchData] ends with [loading] and [refreshing] false:
    the cache-hit path sets both, and the [finally] block does on every
    network path. *)
Theorem fetchData_clears_spinners (now now_done : Z) (out : FetchOutcome) (st : AppState) :
  loading (fst (fetchData now now_done out st)) = false /\
  refreshing (fst (fetchData now now_done out st)) = false.
Proof.
  unfold fetchData. destruct (cache st) as [c|]; [destruct (now - c_timestamp c <? cacheDuration)|];
    split; reflexivity.
Qed.

(** [fetchData] changes the cache entry only through a successful network
    fetch (2xx status and a JSON body), which stores the response data with
    the completion time, publishes that data and clears the error. *)
Theorem fetchData_cache_replaced_only_on_success (now now_done : Z) (out : FetchOutcome)
    (st : AppState) :
  let st' := fst (fetchData now now_done out st) in
  cache st' = cache st \/
  (exists status data,
     out = Response status (JsonOk data) /\ ok_status status = true /\
     cache_fresh now st = false /\
     cache st' = Some {| c_data := data; c_timestamp := now_done |} /\
     gmpData st' = data /\ error st' = None).
Proof.
  cbv zeta.
  assert (Hnet : cache_fresh now st = false ->
                 fst (fetchData now now_done out st) = fetch_and_store now_done out st).
  { unfold fetchData, cache_fresh. destruct (cache st) as [c|]; [|reflexivity].
    intros H; rewrite H; reflexivity. }
  destruct (cache_fresh now st) eqn:Hf.
  - left. unfold fetchData. unfold cache_fresh in Hf.
    destruct (cache st) as [c|] eqn:Hc; [|discriminate]. rewrite Hf. simpl. exact Hc.
  - rewrite (Hnet eq_refl). unfold fetch_and_store.
    destruct out as [msg|status body]; [left; reflexivity|].
    destruct (ok_status status) eqn:Hok; [|left; reflexivity].
    destruct body as [data|msg]; [|left; reflexivity].
    right. exists status, data. repeat split; assumption || reflexivity.
Qed.

Lemma fetchData_preserves_published_is_cached (now now_done : Z) (out : FetchOutcome)
    (st : AppState) :
  published_is_cached st -> published_is_cached (fst (fetchData now now_done out st)).
Proof.
  unfold published_is_cached, fetchData. intros Hinv.
  destruct (cache st) as [c|] eqn:Hc.
  - destruct (now - c_timestamp c <? cacheDuration).
    + simpl. rewrite Hc. reflexivity.
    + unfold fetch_and_store. destruct out as [msg|status body]; simpl; rewrite ?Hc;
        [exact Hinv|].
      destruct (ok_status status); simpl; [|rewrite Hc; exact Hinv].
      destruct body; simpl; [reflexivity|rewrite Hc; exact Hinv].
  - unfold fetch_and_store. destruct out as [msg|status body]; simpl; rewrite ?Hc; [exact I|].
    destruct (ok_status status); simpl; [|rewrite Hc; exact I].
    destruct body; simpl; [reflexivity|rewrite Hc; exact I].
Qed.

(** From the initial state of [App], after any sequence of [fetchData]
    calls (timer ticks, Refresh clicks, successes and failures in any
    order), the published [gmpData] is the cached snapshot whenever a cache
    entry exists. *)
Theorem run_fetches_published_is_cached (calls : list (Z * Z * FetchOutcome)) :
  published_is_cached (run_fetches calls initial_state).
Proof.
  unfold run_fetches. assert (H : published_is_cached initial_state) by exact I.
  revert H. generalize initial_state.
  induction calls as [|[[now now_done] out] calls IH]; intros st H; simpl; [exact H|].
  apply IH, fetchData_preserves_published_is_cached, H.
Qed.

(** ** Statistics *)

Lemma filter_length_mono {A : Type} (f g : A -> bool) (l : list A) :
  (forall x, f x = true -> g x = true) -> (length (filter f l) <= length (filter g l))%nat.
Proof.
  intros H. induction l as [|x l IH]; simpl; [lia|].
  destruct (f x) eqn:Ef; [rewrite (H x Ef); simpl; lia|].
  destruct (g x); simpl; lia.
Qed.

(** Every IPO counted active is counted upcoming, and both counts are at
    most the number of records; a record whose open date is [null] counts
    as upcoming and never as active. *)
Theorem stats_active_le_upcoming (year now : Z) (data : list GmpDataItem) :
  (activeIPOs year now data <= upcomingIPOs year now data <= length data)%nat /\
  (forall it, parseDate year (open it) = None ->
     activeIPOs year now (it :: data) = activeIPOs year now data /\
     upcomingIPOs year now (it :: data) = S (upcomingIPOs year now data)).
Proof.
  split; [split|].
  - apply filter_length_mono. intros it.
    destruct (parseDate year (open it)); [|discriminate].
    intros H. apply andb_true_iff in H. apply H.
  - unfold upcomingIPOs. induction data as [|x data IH]; simpl; [lia|].
    destruct (match parseDate year (open x) with
              | Some openDate => date_after openDate now | None => true end); simpl; lia.
  - intros it H. unfold activeIPOs, upcomingIPOs. simpl. rewrite H. split; reflexivity.
Qed.

(** [avgGMP] with no records is [NaN] (the division is [0 / 0]); with
    records that all show ["-"] as GMP it is [0], since the sum is over no
    record but the divisor is the full length. *)
Theorem avgGMP_edge_cases :
  avgGMP [] = JNaN /\
  (forall data, data <> [] -> Forall (fun it => gmp it = "-"%string) data ->
     avgGMP data = JNum 0).
Proof.
  split; [reflexivity|].
  intros data Hne Hall. unfold avgGMP.
  assert (Hf : filter (fun item => negb (String.eqb (gmp item) "-")) data = []).
  { clear Hne. induction Hall as [|x l Hx _ IH]; [reflexivity|]. simpl. rewrite Hx. exact IH. }
  rewrite Hf. simpl fold_left. unfold JsNum.div, JsNum.of_Z.
  destruct (Qeq_bool (inject_Z (Z.of_nat (length data))) 0) eqn:E.
  - apply Qeq_bool_iff in E. unfold Qeq in E. simpl in E.
    destruct data; [congruence|]. simpl in E. lia.
  - rewrite (Qred_complete (0 / inject_Z (Z.of_nat (length data))) 0);
      [reflexivity|unfold Qdiv; apply Qmult_0_l].
Qed.

(** The table rows are exactly the records whose decoded, lower-cased name
    contains the lower-cased search term, each kept once: the sort of
    [filteredAndSortedData] reorders the filtered list and neither drops
    nor duplicates a record. *)
Theorem filteredAndSortedData_rows (textContent innerText : string -> string)
    (localeCompare : string -> string -> Z) (year : Z) (data : list GmpDataItem)
    (searchTerm sortBy : string) (sortOrder : SortOrder) :
  Permutation (filterData textContent innerText data searchTerm)
    (filteredAndSortedData textContent innerText localeCompare year data searchTerm
       sortBy sortOrder) /\
  (forall x,
     In x (filteredAndSortedData textContent innerText localeCompare year data searchTerm
             sortBy sortOrder) <->
     In x data /\
     includes (chars (toLowerCase (decodeHTML textContent innerText (ipo x))))
              (chars (toLowerCase searchTerm)) = true).
Proof.
  assert (Hp : Permutation (filterData textContent innerText data searchTerm)
    (filteredAndSortedData textContent innerText localeCompare year data searchTerm
       sortBy sortOrder)) by apply array_sort_perm.
  split; [exact Hp|]. intros x. split.
  - intros Hin. apply (Permutation_in _ (Permutation_sym Hp)) in Hin.
    apply filter_In in Hin. exact Hin.
  - intros Hin. apply (Permutation_in _ Hp). apply filter_In. exact Hin.
Qed.

(** [handleSort] always selects the clicked column; a click on a new column
    sorts ascending, and two clicks on the same column restore the order
    when it was already selected and give descending otherwise. *)
Theorem handleSort_clicks (column : string) (s : string * SortOrder) :
  fst (handleSort column s) = column /\
  (fst s <> column -> snd (handleSort column s) = Asc) /\
  handleSort column (handleSort column s) =
    (column, if String.eqb (fst s) column then snd s else Desc).
Proof.
  destruct s as [sortBy prevOrder]. unfold handleSort. simpl.
  rewrite String.eqb_refl.
  destruct (String.eqb sortBy column) eqn:E.
  - apply String.eqb_eq in E. split; [reflexivity|]. split; [intros H; congruence|].
    destruct prevOrder; reflexivity.
  - split; [reflexivity|]. split; reflexivity.
Qed.

Lemma or0_not_nan (x : jsnum) : JsNum.or0 x <> JNaN.
Proof. destruct x as [q| |]; simpl; [destruct (Qeq_bool q 0)|..]; discriminate. Qed.

Lemma lt0_sub_ext_le (x y : jsnum) (Hx : x <> JNaN) (Hy : y <> JNaN) :
  (JsNum.lt0 (JsNum.sub x y) = true -> ext_le x y) /\
  (JsNum.lt0 (JsNum.sub x y) = false -> ext_le y x).
Proof.
  destruct x as [a|[]|], y as [b|[]|]; try congruence; simpl; try (split; intros; easy).
  split; intros H.
  - apply lt0_sub_JNum in H. lra.
  - destruct (Qlt_le_dec a b) as [Hlt|Hle]; [|exact Hle].
    apply lt0_sub_JNum in Hlt. simpl in Hlt. congruence.
Qed.

(** Sorting by [gmp] orders the records by their GMP value, with ["-"] (and
    any text that does not parse) as [0] and a GMP spelling [Infinity] or
    [-Infinity] at the corresponding end; [Desc] gives the reverse order. *)
Theorem sortData_gmp_sorted (lc : string -> string -> Z) (year : Z)
    (data : list GmpDataItem) :
  Sorted (fun a b => ext_le (gmp_key a) (gmp_key b)) (sortData lc year data "gmp" Asc) /\
  Sorted (fun a b => ext_le (gmp_key b) (gmp_key a)) (sortData lc year data "gmp" Desc).
Proof.
  assert (Hasc : forall a b, compare_items lc year "gmp" Asc a b =
                             JsNum.sub (gmp_key a) (gmp_key b)) by reflexivity.
  assert (Hdesc : forall a b, compare_items lc year "gmp" Desc a b =
                              JsNum.sub (gmp_key b) (gmp_key a)) by reflexivity.
  split; unfold sortData; apply array_sort_sorted; intros x y H.
  - rewrite Hasc in H. exact (proj1 (lt0_sub_ext_le _ _ (or0_not_nan _) (or0_not_nan _)) H).
  - rewrite Hasc in H. exact (proj2 (lt0_sub_ext_le _ _ (or0_not_nan _) (or0_not_nan _)) H).
  - rewrite Hdesc in H. exact (proj1 (lt0_sub_ext_le _ _ (or0_not_nan _) (or0_not_nan _)) H).
  - rewrite Hdesc in H. exact (proj2 (lt0_sub_ext_le _ _ (or0_not_nan _) (or0_not_nan _)) H).
Qed.

(** ** The accepted date shapes *)

Lemma span_digits_app (ds r : list ascii) :
  forallb is_digit ds = true ->
  match r with c :: _ => is_digit c = false | [] => True end ->
  span_digits (ds ++ r) = (ds, r).
Proof.
  intros Hd Hr. induction ds as [|c ds IH]; simpl.
  - destruct r as [|c r]; [reflexivity|]. simpl. rewrite Hr. reflexivity.
  - simpl in Hd. apply andb_true_iff in Hd as [Hc Hds]. rewrite Hc, IH by exact Hds.
    reflexivity.
Qed.

Lemma span_letters_app (w : list ascii) (c : ascii) (r : list ascii) :
  forallb is_letter w = true -> is_letter c = false ->
  span_letters (w ++ c :: r) = (w, c :: r).
Proof.
  intros Hw Hc. induction w as [|x w IH]; cbn [app span_letters].
  - unfold is_letter in Hc. rewrite Hc. reflexivity.
  - simpl in Hw. apply andb_true_iff in Hw as [Hx Hw]. unfold is_letter in Hx.
    rewrite Hx, IH by exact Hw. reflexivity.
Qed.

Lemma includes_char_none (c : ascii) (P : ascii -> bool) (l : list ascii) :
  forallb P l = true -> P c = false -> includes_char c l = false.
Proof.
  intros Hl Hc. induction l as [|x l IH]; [reflexivity|].
  simpl in *. apply andb_true_iff in Hl as [Hx Hl].
  destruct (Ascii.eqb_spec c x) as [<-|_]; [congruence|]. simpl. apply IH, Hl.
Qed.

Lemma split_on_none (c : ascii) (l : list ascii) :
  includes_char c l = false -> split_on c l = [l].
Proof.
  induction l as [|x l IH]; simpl; [reflexivity|].
  intros H. apply orb_false_iff in H as [Hx Hl]. rewrite Ascii.eqb_sym, Hx, IH by exact Hl.
  reflexivity.
Qed.

Lemma split_on_app (c : ascii) (a b : list ascii) :
  includes_char c a = false -> split_on c (a ++ c :: b) = a :: split_on c b.
Proof.
  induction a as [|x a IH]; simpl; intros H.
  - rewrite Ascii.eqb_refl. reflexivity.
  - apply orb_false_iff in H as [Hx Ha]. rewrite Ascii.eqb_sym, Hx, IH by exact Ha.
    reflexivity.
Qed.

Lemma month_word_letters (i : nat) (Hi : (i < 12)%nat) (w : list ascii)
    (H : map lower_char w = chars (nth i month_names ""%string)) :
  forallb is_letter w = true /\ month_of_word w = Some (Z.of_nat i + 1).
Proof.
  split.
  - assert (E : forallb is_letter w =
                forallb (fun c => (97 <=? nat_of_ascii c)%nat && (nat_of_ascii c <=? 122)%nat)
                        (map lower_char w)).
    { clear H. induction w as [|x w IH]; simpl; [reflexivity|]. rewrite IH. reflexivity. }
    rewrite E, H. do 12 (destruct i as [|i]; [reflexivity|]). lia.
  - unfold month_of_word. rewrite H. do 12 (destruct i as [|i]; [reflexivity|]). lia.
Qed.

Lemma date_of_string_shape (mon dd ys tail : list ascii) (i : nat) (Hi : (i < 12)%nat)
    (Hmon : map lower_char mon = chars (nth i month_names ""%string))
    (Hdd : dd <> []) (Hddd : forallb is_digit dd = true)
    (Hday : 1 <= digits_value dd <= 31)
    (Hys : ys <> []) (Hysd : forallb is_digit ys = true)
    (Htail : match tail with c :: _ => is_digit c = false | [] => True end) :
  date_of_string (mon ++ " "%char :: dd ++ ","%char :: " "%char :: ys ++ tail) =
  match tail with
  | [] => ValidDate (time_value (digits_value ys) (Z.of_nat i + 1) (digits_value dd) 0 0)
  | " "%char :: r3 =>
      match span_digits r3 with
      | ((_ :: _) as hs, ":"%char :: r4) =>
          match span_digits r4 with
          | ((_ :: _) as mis, []) =>
              if (digits_value hs <? 24) && (digits_value mis <? 60) then
                ValidDate (time_value (digits_value ys) (Z.of_nat i + 1) (digits_value dd)
                             (digits_value hs) (digits_value mis))
              else InvalidDate
          | _ => InvalidDate
          end
      | _ => InvalidDate
      end
  | _ => InvalidDate
  end.
Proof.
  destruct (month_word_letters i Hi mon Hmon) as [Hl Hm].
  unfold date_of_string. rewrite (span_letters_app mon " " _ Hl eq_refl), Hm.
  rewrite (span_digits_app dd (","%char :: _) Hddd eq_refl).
  destruct dd as [|c0 dd']; [contradiction|].
  assert (Hb : (1 <=? digits_value (c0 :: dd')) && (digits_value (c0 :: dd') <=? 31) = true)
    by (apply andb_true_iff; split; apply Z.leb_le; lia).
  cbv beta iota. rewrite Hb. rewrite (span_digits_app ys tail Hysd Htail).
  destruct ys as [|y0 ys']; [contradiction|].
  destruct tail as [|t tail]; [reflexivity|]. reflexivity.
Qed.

(** The two shapes of the API's dates, ["DD-Mon"] and ["DD-Mon HH:mm"] (a
    one- or two-digit day from 1 to 31, a month name in any letter case, a
    two-digit-at-most hour below 24 and minute below 60), are read as that
    day of that month of the current year, at midnight or at the given
    time. *)
Theorem parseDate_day_month_shapes (year : Z) (Hyear : 0 <= year) (dd mon : list ascii)
    (i : nat) (Hi : (i < 12)%nat)
    (Hmon : map lower_char mon = chars (nth i month_names ""%string))
    (Hdd : dd <> []) (Hddl : (length dd <= 2)%nat) (Hddd : forallb is_digit dd = true)
    (Hday : 1 <= digits_value dd <= 31) :
  parseDate year (Some (str (dd ++ "-"%char :: mon))) =
    Some (ValidDate (time_value year (Z.of_nat i + 1) (digits_value dd) 0 0)) /\
  (forall hh mi : list ascii,
     hh <> [] -> (length hh <= 2)%nat -> forallb is_digit hh = true ->
     digits_value hh < 24 ->
     length mi = 2%nat -> forallb is_digit mi = true -> digits_value mi < 60 ->
     parseDate year (Some (str (dd ++ "-"%char :: mon ++ " "%char :: hh ++ ":"%char :: mi))) =
       Some (ValidDate (time_value year (Z.of_nat i + 1) (digits_value dd)
                                   (digits_value hh) (digits_value mi)))).
Proof.
  destruct (month_word_letters i Hi mon Hmon) as [Hl _].
  assert (Hdash : includes_char "-" dd = false)
    by (apply (includes_char_none _ is_digit); [exact Hddd|reflexivity]).
  assert (Hcolon_dd : includes_char ":" dd = false)
    by (apply (includes_char_none _ is_digit); [exact Hddd|reflexivity]).
  assert (Hcolon_mon : includes_char ":" mon = false)
    by (apply (includes_char_none _ is_letter); [exact Hl|reflexivity]).
  assert (Hdash_mon : includes_char "-" mon = false)
    by (apply (includes_char_none _ is_letter); [exact Hl|reflexivity]).
  assert (Hsp_mon : includes_char " " mon = false)
    by (apply (includes_char_none _ is_letter); [exact Hl|reflexivity]).
  destruct (z_dec_spec year Hyear) as [ys [Hz [Hys [Hysd Hyv]]]].
  split.
  - unfold parseDate. rewrite list_ascii_of_string_of_list_ascii.
    destruct (dd ++ "-"%char :: mon) as [|c l] eqn:E; [destruct dd; discriminate|].
    rewrite <- E. cbv zeta.
    unfold includes_char at 1 2. rewrite !existsb_app. fold (includes_char "-" dd).
    fold (includes_char ":" dd). rewrite Hdash, Hcolon_dd. simpl existsb.
    fold (includes_char ":" mon). rewrite Hcolon_mon. cbv iota beta.
    rewrite (split_on_app _ _ _ Hdash), (split_on_none _ _ Hdash_mon).
    unfold nth_or_undefined. simpl nth. change (chars " ") with [" "%char].
    change (chars ", ") with [","%char; " "%char]. rewrite Hz. simpl app.
    cbn [orb andb negb].
    pose proof (date_of_string_shape mon dd ys [] i Hi Hmon Hdd Hddd Hday Hys Hysd I) as Hs.
    rewrite app_nil_r in Hs. rewrite Hs, Hyv. reflexivity.
  - intros hh mi Hhh Hhhl Hhhd Hhv Hmil Hmid Hmiv.
    assert (Hmi : mi <> []) by (destruct mi; discriminate).
    unfold parseDate. rewrite list_ascii_of_string_of_list_ascii.
    destruct (dd ++ "-"%char :: mon ++ " "%char :: hh ++ ":"%char :: mi) as [|c l] eqn:E;
      [destruct dd; discriminate|].
    rewrite <- E. cbv zeta.
    assert (Hc : includes_char ":" (dd ++ "-"%char :: mon ++ " "%char :: hh ++ ":"%char :: mi)
                 = true).
    { apply existsb_exists. exists ":"%char. split; [|apply Ascii.eqb_refl].
      apply in_or_app; right; right. apply in_or_app; right; right.
      apply in_or_app; right; left. reflexivity. }
    rewrite Hc, andb_false_r. cbv iota beta.
    assert (Hsp_dd : includes_char " " dd = false)
      by (apply (includes_char_none _ is_digit); [exact Hddd|reflexivity]).
    assert (Hsp_hh : includes_char " " hh = false)
      by (apply (includes_char_none _ is_digit); [exact Hhhd|reflexivity]).
    assert (Hsp_mi : includes_char " " mi = false)
      by (apply (includes_char_none _ is_digit); [exact Hmid|reflexivity]).
    replace (dd ++ "-"%char :: mon ++ " "%char :: hh ++ ":"%char :: mi)
      with ((dd ++ "-"%char :: mon) ++ " "%char :: (hh ++ ":"%char :: mi))
      by (rewrite <- app_assoc; reflexivity).
    rewrite (split_on_app " " (dd ++ "-"%char :: mon)).
    2:{ unfold includes_char. rewrite existsb_app. simpl.
        fold (includes_char " " dd) (includes_char " " mon). rewrite Hsp_dd, Hsp_mon.
        reflexivity. }
    rewrite (split_on_none " " (hh ++ ":"%char :: mi)).
    2:{ unfold includes_char. rewrite existsb_app. simpl.
        fold (includes_char " " hh) (includes_char " " mi). rewrite Hsp_hh, Hsp_mi.
        reflexivity. }
    unfold nth_or_undefined. simpl nth.
    rewrite (split_on_app _ _ _ Hdash), (split_on_none _ _ Hdash_mon). simpl nth.
    change (chars " ") with [" "%char].
    change (chars ", ") with [","%char; " "%char]. rewrite Hz. simpl app.
    replace (mon ++ " "%char :: dd ++ [","%char; " "%char] ++ ys ++ " "%char :: hh ++ ":"%char :: mi)
      with (mon ++ " "%char :: dd ++ ","%char :: " "%char :: ys ++
            (" "%char :: hh ++ ":"%char :: mi))
      by reflexivity.
    cbn [orb andb negb].
    rewrite (date_of_string_shape mon dd ys (" "%char :: hh ++ ":"%char :: mi) i Hi Hmon Hdd
               Hddd Hday Hys Hysd eq_refl), Hyv.
    rewrite (span_digits_app hh (":"%char :: mi) Hhhd eq_refl).
    pose proof (span_digits_app mi [] Hmid I) as Hsm. rewrite app_nil_r in Hsm. rewrite Hsm.
    destruct hh as [|h0 hh']; [contradiction|]. destruct mi as [|m0 mi']; [contradiction|].
    cbv iota beta.
    assert (Hb : (digits_value (h0 :: hh') <? 24) && (digits_value (m0 :: mi') <? 60) = true)
      by (apply andb_true_iff; split; apply Z.ltb_lt; assumption).
    rewrite Hb. reflexivity.
Qed.

Lemma parseDate_day_month_shapes_witness :
  parseDate 2026 (Some (str (chars "23" ++ "-"%char :: chars "Dec"))) =
    Some (ValidDate (time_value 2026 12 23 0 0)).
Proof.
  exact (proj1 (parseDate_day_month_shapes 2026 ltac:(lia) (chars "23") (chars "Dec") 11
                  ltac:(lia) eq_refl ltac:(discriminate) ltac:(simpl; lia) eq_refl
                  ltac:(split; vm_compute; discriminate))).
Defined.

(** [parseDate] returns [null] on a string exactly when the string is empty
    or contains neither '-' nor ':'; any other string gives a [Date], valid
    or not. *)
Theorem parseDate_null_iff (year : Z) (s : string) :
  parseDate year (Some s) = None <->
  chars s = [] \/ (includes_char "-" (chars s) = false /\ includes_char ":" (chars s) = false).
Proof.
  unfold parseDate. cbv zeta. destruct (chars s) as [|c l].
  - split; [left; reflexivity|reflexivity].
  - destruct (includes_char "-" (c :: l)), (includes_char ":" (c :: l)); cbn [andb negb];
      split; intros H; try discriminate; try reflexivity;
      try (destruct H as [H|[H1 H2]]; discriminate).
    right; split; reflexivity.
Qed.
